(** * Flask-Notes-v2: the request handlers of [app.py] over the models of
    [models.py] and the schema of [schemas.py].

    The handlers are embedded as computations in a state-and-exception monad
    over a [World]: the committed tables, the unit of work of [db.session],
    the user of the request context and the faults the store will signal.
    Values that cross the Python boundaries the handlers rely on (keyword
    arguments, attributes, JSON members) are [pyval]s, so that the call
    [Note(title=..., content=..., user_id=...)], the attribute [note.user_id]
    and the criterion [filter_by(user_id=...)] are resolved against what
    [models.py] declares, the way Python and SQLAlchemy resolve them. *)

From stdpp Require Import base strings pretty gmap list.
From Stdlib Require Import ZArith.

Local Open Scope Z_scope.
Local Open Scope string_scope.

(** ** Python values, exceptions and calls *)

Module Py.

Inductive pyval : Type :=
  | PNone
  | PInt (z : Z)
  | PStr (s : string).

#[global] Instance pyval_eq_dec : EqDecision pyval.
Proof. solve_decision. Defined.

(** The classes of SQLAlchemy errors the handlers can meet; all of them are
    subclasses of [SQLAlchemyError]. *)
Inductive sa_error : Type :=
  | OperationalError
  | IntegrityError
  | InvalidRequestError.

Inductive exn : Type :=
  | KeyError (key : string)
  | TypeError (msg : string)
  | AttributeError (cls attr : string)
  | SQLAlchemyError (kind : sa_error) (msg : string)
  | ValidationError (msg : string)
  | HTTPException (code : Z).

(** [str(e)] as the f-strings of the handlers use it. *)
Definition exn_str (e : exn) : string :=
  match e with
  | KeyError k => "'" +:+ k +:+ "'"
  | TypeError m => m
  | AttributeError c a => "'" +:+ c +:+ "' object has no attribute '" +:+ a +:+ "'"
  | SQLAlchemyError _ m => m
  | ValidationError m => m
  | HTTPException _ => ""
  end.

Definition is_SQLAlchemyError (e : exn) : bool :=
  match e with SQLAlchemyError _ _ => true | _ => false end.

Definition is_ValidationError (e : exn) : bool :=
  match e with ValidationError _ => true | _ => false end.

Inductive result (A : Type) : Type :=
  | Ok (a : A)
  | Raise (e : exn).
Arguments Ok {A} a.
Arguments Raise {A} e.

(** A call [f(k1=v1, ..., kn=vn)] of a function whose parameters (after
    [self]) are [params], none with a default: a keyword that is no parameter
    is a [TypeError], and so is a parameter left without argument. *)
Definition kwargs := list (string * pyval).

Fixpoint kw_lookup (kw : kwargs) (k : string) : option pyval :=
  match kw with
  | [] => None
  | (k', v) :: kw' => if String.eqb k' k then Some v else kw_lookup kw' k
  end.

Definition unexpected_keyword (params : list string) (kw : kwargs) : option string :=
  fst <$> List.find (fun kv => negb (existsb (String.eqb (fst kv)) params)) kw.

Fixpoint bind_params (fname : string) (params : list string) (kw : kwargs)
  : result (list pyval) :=
  match params with
  | [] => Ok []
  | p :: ps =>
      match kw_lookup kw p with
      | None =>
          Raise (TypeError (fname +:+ "() missing 1 required positional argument: '"
                            +:+ p +:+ "'"))
      | Some v =>
          match bind_params fname ps kw with
          | Ok vs => Ok (v :: vs)
          | Raise e => Raise e
          end
      end
  end.

Definition call_kw (fname : string) (params : list string) (kw : kwargs)
  : result (list pyval) :=
  match unexpected_keyword params kw with
  | Some k =>
      Raise (TypeError (fname +:+ "() got an unexpected keyword argument '"
                        +:+ k +:+ "'"))
  | None => bind_params fname params kw
  end.

End Py.
Export Py.

(** ** The models of [models.py] *)

Module Models.

(** A row of [users]: [id], [username] (unique, not null) and
    [password_hash] (not null). *)
Record User : Type := mkUser {
  User_id : Z;
  User_username : string;
  User_password_hash : string
}.

(** A row of [note]: [id], [title], [description] and [status]; the three
    text columns are nullable. There is no other column. *)
Record Note : Type := mkNote {
  Note_id : Z;
  Note_title : option string;
  Note_description : option string;
  Note_status : option string
}.

#[global] Instance User_eq_dec : EqDecision User.
Proof. solve_decision. Defined.
#[global] Instance Note_eq_dec : EqDecision Note.
Proof. solve_decision. Defined.

Definition text (c : option string) : pyval :=
  match c with Some s => PStr s | None => PNone end.

(** What a [db.Model] subclass declares: its name and its mapped columns, with
    the value an instance holds for each. An instance has no data attribute
    besides its columns. *)
Class Model (T : Type) : Type := {
  classname : string;
  columns : list string;
  column : T -> string -> option pyval
}.

#[global] Instance Note_Model : Model Note := {
  classname := "Note";
  columns := ["id"; "title"; "description"; "status"];
  column n a :=
    if String.eqb a "id" then Some (PInt (Note_id n))
    else if String.eqb a "title" then Some (text (Note_title n))
    else if String.eqb a "description" then Some (text (Note_description n))
    else if String.eqb a "status" then Some (text (Note_status n))
    else None
}.

#[global] Instance User_Model : Model User := {
  classname := "User";
  columns := ["id"; "username"; "password_hash"];
  column u a :=
    if String.eqb a "id" then Some (PInt (User_id u))
    else if String.eqb a "username" then Some (PStr (User_username u))
    else if String.eqb a "password_hash" then Some (PStr (User_password_hash u))
    else None
}.

Definition is_column (T : Type) `{Model T} (a : string) : bool :=
  existsb (String.eqb a) (columns (T := T)).

(** [Note.__init__(self, title, description, status)]: the object it builds,
    not yet in the session and without [id]. (A call that binds returns one
    value per parameter, so the second branch of [Note_new] is never taken.) *)
Record NewNote : Type := mkNewNote {
  new_title : pyval;
  new_description : pyval;
  new_status : pyval
}.

Definition Note_init_params : list string := ["title"; "description"; "status"].

Definition Note_new (kw : kwargs) : result NewNote :=
  match call_kw "Note.__init__" Note_init_params kw with
  | Ok [t; d; s] => Ok (mkNewNote t d s)
  | Ok _ => Raise (TypeError "Note.__init__")
  | Raise e => Raise e
  end.

(** [User.__init__(self, username, password)] stores the hash of the
    password, never the password. *)
Record NewUser : Type := mkNewUser {
  new_username : string;
  new_password_hash : string
}.

Definition User_new (generate_password_hash : string -> string)
    (username password : string) : NewUser :=
  mkNewUser username (generate_password_hash password).

End Models.
Export Models.

(** ** The store, the session and the request context *)

Module Store.

(** The committed tables. *)
Record DB : Type := mkDB {
  users : list User;
  notes : list Note
}.

#[global] Instance DB_eq_dec : EqDecision DB.
Proof. solve_decision. Defined.

(** The unit of work [db.session] has collected and not yet committed. *)
Inductive pending : Type :=
  | InsertUser (u : NewUser)
  | InsertNote (n : NewNote)
  | UpdateNoteColumn (id : Z) (col : string) (v : pyval)
  | DeleteNoteRow (id : Z).

(** One entry per round trip to the database, in order: [Some msg] makes that
    round trip fail with an [OperationalError] carrying [msg]. Past the end of
    the list no round trip fails. *)
Definition fault := option string.

Record World : Type := mkWorld {
  db : DB;
  session : list pending;
  current_user : option User;
  faults : list fault
}.

Definition set_db (d : DB) (w : World) : World :=
  mkWorld d (session w) (current_user w) (faults w).
Definition set_session (s : list pending) (w : World) : World :=
  mkWorld (db w) s (current_user w) (faults w).
Definition set_current_user (u : option User) (w : World) : World :=
  mkWorld (db w) (session w) u (faults w).
Definition set_faults (f : list fault) (w : World) : World :=
  mkWorld (db w) (session w) (current_user w) f.

(** Python code that reads and writes the world and may raise: what it has
    written before raising stays written. *)
Definition M (A : Type) : Type := World -> result A * World.

Definition ret {A} (a : A) : M A := fun w => (Ok a, w).
Definition raise {A} (e : exn) : M A := fun w => (Raise e, w).
Definition bind {A B} (m : M A) (k : A -> M B) : M B :=
  fun w =>
    match m w with
    | (Ok a, w') => k a w'
    | (Raise e, w') => (Raise e, w')
    end.
Definition lift {A} (r : result A) : M A := fun w => (r, w).

(** [try: body except E1 as e: h1(e) except E2 as e: h2(e) ...]: the first
    clause whose class accepts the exception handles it; an exception no
    clause accepts propagates. *)
Definition except_clause (A : Type) : Type := (exn -> bool) * (exn -> M A).

Definition try_except {A} (body : M A) (clauses : list (except_clause A)) : M A :=
  fun w =>
    match body w with
    | (Ok a, w') => (Ok a, w')
    | (Raise e, w') =>
        match List.find (fun c => fst c e) clauses with
        | Some c => snd c e w'
        | None => (Raise e, w')
        end
    end.

Declare Scope py_scope.
Delimit Scope py_scope with py.
Notation "'let*' x ':=' m 'in' k" := (bind m (fun x => k))
  (at level 10, x name, m at level 100, k at level 200) : py_scope.
Notation "m '>>' k" := (bind m (fun _ => k))
  (at level 90, right associativity) : py_scope.

Local Open Scope py_scope.

(** A round trip to the database consumes the next fault. *)
Definition round_trip : M unit :=
  fun w =>
    match faults w with
    | Some msg :: fs => (Raise (SQLAlchemyError OperationalError msg), set_faults fs w)
    | None :: fs => (Ok tt, set_faults fs w)
    | [] => (Ok tt, w)
    end.

(** *** Queries *)

Definition column_is {T} `{Model T} (row : T) (kv : string * pyval) : bool :=
  match column row (fst kv) with
  | Some v => bool_decide (v = snd kv)
  | None => false
  end.

(** [Model.query.filter_by(k1=v1, ...)]: a criterion that names no mapped column of
    the model is refused when the query is built, before any round trip. *)
Definition filter_by {T} `{Model T} (table : DB -> list T) (kw : kwargs) : M (list T) :=
  match List.find (fun kv => negb (is_column T (fst kv))) kw with
  | Some (k, _) =>
      raise (SQLAlchemyError InvalidRequestError
               ("Entity namespace for '" +:+ classname (T := T)
                +:+ "' has no property '" +:+ k +:+ "'"))
  | None =>
      round_trip >>
      fun w => (Ok (List.filter (fun row => forallb (column_is row) kw) (table (db w))), w)
  end.

Definition first {T} (q : M (list T)) : M (option T) :=
  let* rows := q in ret (head rows).

Definition all {T} (q : M (list T)) : M (list T) := q.

(** [Note.query.get(id)]: the row with that primary key, or [None]. *)
Definition Note_query_get (id : Z) : M (option Note) :=
  round_trip >>
  fun w => (Ok (List.find (fun n => Z.eqb (Note_id n) id) (notes (db w))), w).

(** *** The session *)

Definition session_add (p : pending) : M unit :=
  fun w => (Ok tt, set_session (session w ++ [p]) w).

Definition session_rollback : M unit :=
  fun w => (Ok tt, set_session [] w).

Definition next_id (ids : list Z) : Z := 1 + foldr Z.max 0 ids.

(** What the text columns keep of a Python value. *)
Definition to_text (v : pyval) : option string :=
  match v with
  | PNone => None
  | PStr s => Some s
  | PInt z => Some (pretty z)
  end.

Definition set_column (col : string) (v : pyval) (n : Note) : Note :=
  if String.eqb col "title" then mkNote (Note_id n) (to_text v) (Note_description n) (Note_status n)
  else if String.eqb col "description" then mkNote (Note_id n) (Note_title n) (to_text v) (Note_status n)
  else if String.eqb col "status" then mkNote (Note_id n) (Note_title n) (Note_description n) (to_text v)
  else n.

(** Flushing one pending change into the tables; the unique constraint on
    [users.username] refuses a second row with the same name. *)
Definition flush1 (p : pending) (d : DB) : result DB :=
  match p with
  | InsertUser u =>
      if existsb (fun r => String.eqb (User_username r) (new_username u)) (users d)
      then Raise (SQLAlchemyError IntegrityError "UNIQUE constraint failed: users.username")
      else Ok (mkDB (users d ++ [mkUser (next_id (User_id <$> users d))
                                        (new_username u) (new_password_hash u)])
                    (notes d))
  | InsertNote n =>
      Ok (mkDB (users d)
               (notes d ++ [mkNote (next_id (Note_id <$> notes d)) (to_text (new_title n))
                                   (to_text (new_description n)) (to_text (new_status n))]))
  | UpdateNoteColumn id col v =>
      Ok (mkDB (users d)
               ((fun n => if Z.eqb (Note_id n) id then set_column col v n else n) <$> notes d))
  | DeleteNoteRow id =>
      Ok (mkDB (users d) (List.filter (fun n => negb (Z.eqb (Note_id n) id)) (notes d)))
  end.

Fixpoint flush (ps : list pending) (d : DB) : result DB :=
  match ps with
  | [] => Ok d
  | p :: ps' =>
      match flush1 p d with
      | Ok d' => flush ps' d'
      | Raise e => Raise e
      end
  end.

(** [db.session.commit()]: one transaction. Either every pending change
    reaches the tables, or the transaction fails and the tables are as
    before. *)
Definition session_commit : M unit :=
  round_trip >>
  fun w =>
    match flush (session w) (db w) with
    | Ok d' => (Ok tt, set_session [] (set_db d' w))
    | Raise e => (Raise e, w)
    end.

(** *** The user of the request (Flask-Login) *)

Definition login_user (u : User) : M unit :=
  fun w => (Ok tt, set_current_user (Some u) w).

Definition logout_user : M unit :=
  fun w => (Ok tt, set_current_user None w).

(** [@login_required]: an anonymous request is aborted with 401 before the
    view runs. *)
Definition login_required {A} (view : M A) : M A :=
  fun w =>
    match current_user w with
    | Some _ => view w
    | None => (Raise (HTTPException 401), w)
    end.

(** [current_user.id] *)
Definition current_user_id : M pyval :=
  fun w =>
    match current_user w with
    | Some u => (Ok (PInt (User_id u)), w)
    | None => (Raise (AttributeError "AnonymousUserMixin" "id"), w)
    end.

(** [obj.attr] on a model instance. *)
Definition getattr {T} `{Model T} (obj : T) (a : string) : M pyval :=
  match column obj a with
  | Some v => ret v
  | None => raise (AttributeError (classname (T := T)) a)
  end.

(** [note.attr = v]: a mapped column makes the row dirty; any other name only
    sets an attribute on the Python object, which the store never sees. *)
Definition Note_setattr (n : Note) (a : string) (v : pyval) : M unit :=
  if is_column Note a then session_add (UpdateNoteColumn (Note_id n) a v) else ret tt.

End Store.
Export Store.

(** ** The schema of [schemas.py] *)

Module Schemas.

(** The fields [NoteSchema] declares. *)
Definition NoteSchema_fields : list string := ["id"; "title"; "description"; "status"].

(** [NoteSchema().dump(note)]: one member per declared field the object has
    an attribute for. *)
Definition NoteSchema_dump (n : Note) : gmap string pyval :=
  list_to_map (omap (fun f => pair f <$> column n f) NoteSchema_fields).

(** [NoteSchema(many=True).dump(notes)] *)
Definition NoteSchema_dump_many (ns : list Note) : list (gmap string pyval) :=
  NoteSchema_dump <$> ns.

End Schemas.
Export Schemas.

(** ** The resources of [app.py] *)

Module App.

Local Open Scope py_scope.

(** The JSON document [jsonify] renders. *)
Inductive payload : Type :=
  | JObject (o : gmap string pyval)
  | JArray (l : list (gmap string pyval)).

(** What a view returns: [jsonify(...), status]; a view that returns
    [jsonify(...)] alone answers 200. *)
Definition Response : Type := payload * Z.

Definition message (s : string) : payload := JObject {[ "message" := PStr s ]}.
Definition error (s : string) : payload := JObject {[ "error" := PStr s ]}.

(** [request.get_json()]: the JSON object of the body; its members are
    strings. *)
Abbreviation dict := (gmap string string).

(** [data[k]] *)
Definition getitem (data : dict) (k : string) : M string :=
  match data !! k with
  | Some v => ret v
  | None => raise (KeyError k)
  end.

(** [data.get(k, default)]; the caller has evaluated [default] already. *)
Definition dict_get (data : dict) (k : string) (default : pyval) : pyval :=
  match data !! k with
  | Some v => PStr v
  | None => default
  end.

Definition session_delete (n : Note) : M unit := session_add (DeleteNoteRow (Note_id n)).

(** [request.get_json()] when the members of the object are not known to be
    strings: a member is a string, a number or [null]. *)
Abbreviation json_object := (gmap string pyval).

(** [data[k]] on such an object. *)
Definition getitem_json (data : json_object) (k : string) : M pyval :=
  match data !! k with
  | Some v => ret v
  | None => raise (KeyError k)
  end.

(** The name Python gives the type of a value. *)
Definition type_name (v : pyval) : string :=
  match v with
  | PNone => "NoneType"
  | PInt _ => "int"
  | PStr _ => "str"
  end.

Section Resources.

(** werkzeug's [generate_password_hash] and [check_password_hash(hash, password)]. *)
Variable generate_password_hash : string -> string.
Variable check_password_hash : string -> string -> bool.

Definition RegisterResource_post (data : dict) : M Response :=
  try_except
    (let* username := getitem data "username" in
     let* password := getitem data "password" in
     let* taken := first (filter_by users [("username", PStr username)]) in
     match taken with
     | Some _ =>
         ret (error ("Имя пользователя уже занято: " +:+ username), 400)
     | None =>
         let user := User_new generate_password_hash username password in
         session_add (InsertUser user) >>
         session_commit >>
         ret (message "Пользователь успешно зарегистрирован!", 201)
     end)
    [(is_SQLAlchemyError,
      fun e => ret (error ("Ошибка при регистрации пользователя! " +:+ exn_str e), 500))].

Definition LoginResource_post (data : dict) : M Response :=
  try_except
    (let* username := getitem data "username" in
     let* password := getitem data "password" in
     let* user := first (filter_by users [("username", PStr username)]) in
     match user with
     | None => ret (error "Неправильное имя пользователя или пароль!", 401)
     | Some u =>
         if negb (check_password_hash (User_password_hash u) password)
         then ret (error "Неправильное имя пользователя или пароль!", 401)
         else
           login_user u >>
           ret (message "Вход в систему выполнен успешно!", 200)
     end)
    [(is_SQLAlchemyError,
      fun e => ret (error ("Ошибка при входе в систему! " +:+ exn_str e), 500))].

(** [check_password_hash(hash, password)] on a password of any type: werkzeug
    encodes the password before it hashes it, and only a string has
    [encode]. *)
Definition check_password (pwhash : string) (password : pyval) : M bool :=
  match password with
  | PStr p => ret (check_password_hash pwhash p)
  | _ => raise (AttributeError (type_name password) "encode")
  end.

(** [LoginResource.post] on a body whose members may be of any type. The
    view itself never looks at the types: [username] goes to [filter_by] and
    [password] to [check_password_hash], which [or] reaches only when a user
    was found. *)
Definition LoginResource_post_json (data : json_object) : M Response :=
  try_except
    (let* username := getitem_json data "username" in
     let* password := getitem_json data "password" in
     let* user := first (filter_by users [("username", username)]) in
     match user with
     | None => ret (error "Неправильное имя пользователя или пароль!", 401)
     | Some u =>
         let* verified := check_password (User_password_hash u) password in
         if negb verified
         then ret (error "Неправильное имя пользователя или пароль!", 401)
         else
           login_user u >>
           ret (message "Вход в систему выполнен успешно!", 200)
     end)
    [(is_SQLAlchemyError,
      fun e => ret (error ("Ошибка при входе в систему! " +:+ exn_str e), 500))].

Definition LogoutResource_post : M Response :=
  login_required
    (logout_user >>
     ret (message "Выход из системы выполнен успешно!", 200)).

(** The end of the [try] of [NotesResource.post]: the note that was built is
    added and committed. *)
Definition NotesResource_post_save (note : NewNote) : M Response :=
  session_add (InsertNote note) >>
  session_commit >>
  ret (message "Заметка успешно создана!", 201).

(** The [except] clauses of [NotesResource.post]. *)
Definition NotesResource_post_except : list (except_clause Response) :=
  [(is_ValidationError,
    fun e => ret (error ("Ошибка при создании заметки! " +:+ exn_str e), 400));
   (is_SQLAlchemyError,
    fun e => ret (error ("Ошибка при создании заметки! " +:+ exn_str e), 500))].

Definition NotesResource_post (data : dict) : M Response :=
  login_required
    (try_except
       (let* title := getitem data "title" in
        let* content := getitem data "content" in
        let* uid := current_user_id in
        let* note := lift (Note_new [("title", PStr title); ("content", PStr content);
                                     ("user_id", uid)]) in
        NotesResource_post_save note)
       NotesResource_post_except).

(** The end of [NotesResource.get]: the notes the query returned are
    serialised and sent. *)
Definition NotesResource_get_found (notes : list Note) : M Response :=
  let result := NoteSchema_dump_many notes in
  ret (JArray result, 200).

Definition NotesResource_get : M Response :=
  login_required
    (let* uid := current_user_id in
     let* notes := all (filter_by notes [("user_id", uid)]) in
     NotesResource_get_found notes).

(** [not note or note.user_id != current_user.id], for a note that was
    found: the left operand of [!=] is read first. *)
Definition not_owner (n : Note) : M bool :=
  let* owner := getattr n "user_id" in
  let* me := current_user_id in
  ret (negb (bool_decide (owner = me))).

(** The end of [NoteResource.get], past the ownership test: the note is
    serialised and sent. *)
Definition NoteResource_get_found (n : Note) : M Response :=
  let result := NoteSchema_dump n in
  ret (JObject result, 200).

Definition NoteResource_get (id : Z) : M Response :=
  login_required
    (let* note := Note_query_get id in
     match note with
     | None => ret (error "Заметка не найдена!", 404)
     | Some n =>
         let* foreign := not_owner n in
         if foreign then ret (error "Заметка не найдена!", 404)
         else NoteResource_get_found n
     end).

(** The [try] that ends [NoteResource.put]: what the session holds is
    committed, or rolled back. *)
Definition NoteResource_put_commit : M Response :=
  try_except
    (session_commit >>
     ret (message "Заметка успешно обновлена!", 200))
    [(is_SQLAlchemyError,
      fun e =>
        session_rollback >>
        ret (error ("Ошибка при обновлении заметки! " +:+ exn_str e), 500))].

(** The end of [NoteResource.put], past the ownership test: the new values
    are read from the body, written to the note and committed. *)
Definition NoteResource_put_found (n : Note) (data : dict) : M Response :=
  let* old_title := getattr n "title" in
  let title := dict_get data "title" old_title in
  let* old_content := getattr n "content" in
  let content := dict_get data "content" old_content in
  Note_setattr n "title" title >>
  Note_setattr n "content" content >>
  NoteResource_put_commit.

Definition NoteResource_put (id : Z) (data : dict) : M Response :=
  login_required
    (let* note := Note_query_get id in
     match note with
     | None => ret (error "Заметка не найдена!", 404)
     | Some n =>
         let* foreign := not_owner n in
         if foreign then ret (error "Заметка не найдена!", 404)
         else NoteResource_put_found n data
     end).

(** The end of [NoteResource.delete], past the ownership test: the note is
    deleted and the deletion committed, or rolled back. *)
Definition NoteResource_delete_found (n : Note) : M Response :=
  try_except
    (session_delete n >>
     session_commit >>
     ret (message "Заметка успешно удалена!", 200))
    [(is_SQLAlchemyError,
      fun e =>
        session_rollback >>
        ret (error ("Ошибка при удалении заметки! " +:+ exn_str e), 500))].

Definition NoteResource_delete (id : Z) : M Response :=
  login_required
    (let* note := Note_query_get id in
     match note with
     | None => ret (error "Заметка не найдена!", 404)
     | Some n =>
         let* foreign := not_owner n in
         if foreign then ret (error "Заметка не найдена!", 404)
         else NoteResource_delete_found n
     end).

End Resources.

(** What outlives a request: the tables and the user the client's session
    is logged in as. *)
Record Server : Type := mkServer {
  store : DB;
  logged_in : option User
}.

(** Serving one request: the view runs on a fresh [db.session] (the session
    is scoped to the request and discarded when the request ends). *)
Definition request {A} (view : M A) (fs : list fault) (srv : Server) : result A * Server :=
  let (r, w) := view (mkWorld (store srv) [] (logged_in srv) fs) in
  (r, mkServer (db w) (current_user w)).

End App.
Export App.

(** ** Vocabulary of the properties *)

Module Spec.

(** No round trip of the request fails. *)
Definition healthy (fs : list fault) : Prop := Forall (fun f => f = None) fs.

(** The fault the next round trip meets, if any. *)
Definition next_fault (fs : list fault) : option string :=
  match fs with
  | Some msg :: _ => Some msg
  | _ => None
  end.

(** The user row with a given name, and the note row with a given id. *)
Definition find_user (d : DB) (u : string) : option User :=
  List.find (fun r => String.eqb (User_username r) u) (users d).

Definition find_note (d : DB) (id : Z) : option Note :=
  List.find (fun n => Z.eqb (Note_id n) id) (notes d).

(** The tables once a user [u] with password [p] has been inserted. *)
Definition registered (gen : string -> string) (u p : string) (d : DB) : DB :=
  mkDB (users d ++ [mkUser (next_id (User_id <$> users d)) u (gen p)]) (notes d).

(** A view succeeded when it returned a 2xx response. *)
Definition succeeded (r : result Response) : bool :=
  match r with
  | Ok (_, s) => ((200 <=? s) && (s <? 300))%Z
  | Raise _ => false
  end.

(** The mutating operations. *)
Inductive mutation : Type :=
  | Register (data : dict)
  | CreateNote (data : dict)
  | UpdateNote (id : Z) (data : dict)
  | DeleteNote (id : Z).

Definition run (gen : string -> string) (m : mutation) : M Response :=
  match m with
  | Register data => RegisterResource_post gen data
  | CreateNote data => NotesResource_post data
  | UpdateNote id data => NoteResource_put id data
  | DeleteNote id => NoteResource_delete id
  end.

(** What a later request reads when it looks a user up by name. *)
Definition read_user (d : DB) (u : string) : result (option User) :=
  fst (first (filter_by users [("username", PStr u)]) (mkWorld d [] None [])).

(** What a later read finds once the operation has been applied: the user
    that was registered, under the name of the body; a note with the title of
    the body at the end of the table; the note of that id with the title of
    the body, or its old one when the body has none; no note of that id. *)
Definition visible (gen : string -> string) (m : mutation) (before after : DB) : Prop :=
  match m with
  | Register data =>
      exists u p,
        data !! "username" = Some u /\ data !! "password" = Some p /\
        after = registered gen u p before /\
        read_user after u
          = Ok (Some (mkUser (next_id (User_id <$> users before)) u (gen p)))
  | CreateNote data =>
      exists n t,
        data !! "title" = Some t /\ Note_title n = Some t /\
        after = mkDB (users before) (notes before ++ [n])
  | UpdateNote id data =>
      exists n0 n1,
        find_note before id = Some n0 /\ find_note after id = Some n1 /\
        Note_title n1 = match data !! "title" with
                        | Some t => Some t
                        | None => Note_title n0
                        end
  | DeleteNote id => find_note after id = None
  end.

(** The note operations, which [POST /register] is not. *)
Definition on_notes (m : mutation) : bool :=
  match m with
  | Register _ => false
  | _ => true
  end.

(** The tables without the notes of a given id. *)
Definition without_note (id : Z) (d : DB) : DB :=
  mkDB (users d) (List.filter (fun n => negb (Z.eqb (Note_id n) id)) (notes d)).

(** What the per-note views answer before they reach their own work: the
    [login_required] check, the lookup by id, and the ownership test on a note
    that was found. *)
Definition guard_result (fs : list fault) (srv : Server) (id : Z) : result Response :=
  match logged_in srv with
  | None => Raise (HTTPException 401)
  | Some _ =>
      match next_fault fs with
      | Some msg => Raise (SQLAlchemyError OperationalError msg)
      | None =>
          match find_note (store srv) id with
          | None => Ok (error "Заметка не найдена!", 404)
          | Some _ => Raise (AttributeError "Note" "user_id")
          end
      end
  end.

(** What [POST /notes] answers. *)
Definition create_result (srv : Server) (data : dict) : result Response :=
  match logged_in srv with
  | None => Raise (HTTPException 401)
  | Some _ =>
      match data !! "title", data !! "content" with
      | None, _ => Raise (KeyError "title")
      | Some _, None => Raise (KeyError "content")
      | Some _, Some _ =>
          Raise (TypeError "Note.__init__() got an unexpected keyword argument 'content'")
      end
  end.

(** A password scheme and a population to run the scenarios on. *)
Definition demo_hash (p : string) : string := "pbkdf2$" +:+ p.
Definition demo_check (h p : string) : bool := String.eqb h (demo_hash p).

Definition alice : User := mkUser 1 "alice" (demo_hash "p1").
Definition bob : User := mkUser 2 "bob" (demo_hash "p2").
Definition note1 : Note := mkNote 1 (Some "t") (Some "c") None.

Definition nobody_yet : Server := mkServer (mkDB [] []) None.
Definition alice_in (ns : list Note) : Server := mkServer (mkDB [alice; bob] ns) (Some alice).
Definition bob_in (ns : list Note) : Server := mkServer (mkDB [alice; bob] ns) (Some bob).

Definition credentials (u p : string) : dict := {[ "username" := u; "password" := p ]}.

(** Every route of the application, with what the request carries. *)
Inductive route : Type :=
  | PostRegister (data : dict)
  | PostLogin (data : dict)
  | PostLogout
  | PostNotes (data : dict)
  | GetNotes
  | GetNote (id : Z)
  | PutNote (id : Z) (data : dict)
  | DeleteNoteAt (id : Z).

Definition serve (gen : string -> string) (chk : string -> string -> bool) (r : route)
  : M Response :=
  match r with
  | PostRegister data => RegisterResource_post gen data
  | PostLogin data => LoginResource_post chk data
  | PostLogout => LogoutResource_post
  | PostNotes data => NotesResource_post data
  | GetNotes => NotesResource_get
  | GetNote id => NoteResource_get id
  | PutNote id data => NoteResource_put id data
  | DeleteNoteAt id => NoteResource_delete id
  end.

(** The routes behind [@login_required]. *)
Definition protected (r : route) : bool :=
  match r with
  | PostRegister _ | PostLogin _ => false
  | _ => true
  end.

(** The two keys of the user table. *)
Definition usernames (d : DB) : list string := User_username <$> users d.
Definition user_ids (d : DB) : list Z := User_id <$> users d.

(** The keywords of a call, and whether the call names a given parameter. *)
Definition keywords (kw : kwargs) : list string := fst <$> kw.



(** The key a body without [username] or [password] is first asked for in
    vain: [username] is read before [password]. *)
Definition first_missing (data : dict) : string :=
  match data !! "username" with
  | None => "username"
  | Some _ => "password"
  end.

End Spec.
Export Spec.

(** ** Properties *)

Local Open Scope py_scope.

(** *** The store primitives *)

Section Primitives.

Lemma healthy_tail fs : healthy fs -> healthy (tail fs).
Proof. destruct 1; [constructor | assumption]. Qed.

Lemma healthy_next_fault fs : healthy fs -> next_fault fs = None.
Proof. destruct 1 as [|f fs Hf _]; [reflexivity | subst f; reflexivity]. Qed.

Lemma server_eta srv : mkServer (store srv) (logged_in srv) = srv.
Proof. destruct srv; reflexivity. Qed.

Lemma round_trip_eq d s cu fs :
  round_trip (mkWorld d s cu fs)
  = match next_fault fs with
    | Some msg => (Raise (SQLAlchemyError OperationalError msg), mkWorld d s cu (tail fs))
    | None => (Ok tt, mkWorld d s cu (tail fs))
    end.
Proof. destruct fs as [|[msg|] fs]; reflexivity. Qed.

Lemma head_filter {A} (P : A -> bool) (l : list A) :
  head (List.filter P l) = List.find P l.
Proof. induction l as [|a l IH]; simpl; [reflexivity | destruct (P a); auto]. Qed.

Lemma find_ext {A} (P Q : A -> bool) (l : list A) :
  (forall a, P a = Q a) -> List.find P l = List.find Q l.
Proof.
  intros E. induction l as [|a l IH]; cbn; [reflexivity | rewrite E, IH; reflexivity].
Qed.

Lemma username_criterion (r : User) (u : string) :
  forallb (column_is r) [("username", PStr u)] = String.eqb (User_username r) u.
Proof.
  cbn. rewrite andb_true_r.
  destruct (String.eqb_spec (User_username r) u) as [->|Hne].
  - apply bool_decide_eq_true. reflexivity.
  - apply bool_decide_eq_false. congruence.
Qed.

(** The lookup of a user by name, as [/register] and [/login] write it. *)
Lemma query_user_eq d s cu fs u :
  first (filter_by users [("username", PStr u)]) (mkWorld d s cu fs)
  = match next_fault fs with
    | Some msg => (Raise (SQLAlchemyError OperationalError msg), mkWorld d s cu (tail fs))
    | None => (Ok (find_user d u), mkWorld d s cu (tail fs))
    end.
Proof.
  unfold first, filter_by, bind. cbn [List.find fst negb].
  replace (is_column User "username") with true by reflexivity.
  cbn [negb]. rewrite round_trip_eq. destruct (next_fault fs); [reflexivity|].
  cbn [db ret]. rewrite head_filter. unfold find_user.
  rewrite (find_ext _ _ _ (fun r => username_criterion r u)). reflexivity.
Qed.

Lemma read_user_eq d u : read_user d u = Ok (find_user d u).
Proof. unfold read_user. rewrite query_user_eq. reflexivity. Qed.

Lemma note_query_get_eq d s cu fs id :
  Note_query_get id (mkWorld d s cu fs)
  = match next_fault fs with
    | Some msg => (Raise (SQLAlchemyError OperationalError msg), mkWorld d s cu (tail fs))
    | None => (Ok (find_note d id), mkWorld d s cu (tail fs))
    end.
Proof.
  unfold Note_query_get, bind. rewrite round_trip_eq.
  destruct (next_fault fs); reflexivity.
Qed.

Lemma find_user_none d u :
  find_user d u = None ->
  existsb (fun r => String.eqb (User_username r) u) (users d) = false.
Proof.
  unfold find_user. induction (users d) as [|r l IH]; [reflexivity|].
  cbn. destruct (String.eqb (User_username r) u); [discriminate | auto].
Qed.

Lemma find_snoc {A} (P : A -> bool) (l : list A) (r : A) :
  List.find P l = None -> P r = true -> List.find P (l ++ [r]) = Some r.
Proof.
  induction l as [|a l IH]; cbn; intros Hn Hr.
  - rewrite Hr. reflexivity.
  - destruct (P a); [discriminate | auto].
Qed.

Lemma find_user_registered gen d u p :
  find_user d u = None ->
  find_user (registered gen u p d) u
  = Some (mkUser (next_id (User_id <$> users d)) u (gen p)).
Proof.
  intros Hn. unfold find_user, registered. cbn [users].
  apply find_snoc; [exact Hn | apply String.eqb_refl].
Qed.

(** The ownership test reads an attribute [Note] does not have. *)
Lemma not_owner_raises n w :
  not_owner n w = (Raise (AttributeError "Note" "user_id"), w).
Proof. reflexivity. Qed.

End Primitives.

(** *** What each view returns, and what it leaves behind *)

Ltac world :=
  unfold set_session, set_db, set_faults, set_current_user;
  cbn [db session current_user faults].

Ltac unchanged :=
  cbn; rewrite ?server_eta; eexists _, _; split; [reflexivity|]; right; auto.

Section Views.

Variable gen : string -> string.
Variable chk : string -> string -> bool.

Lemma register_outcomes (data : dict) fs srv :
  exists r srv',
    request (RegisterResource_post gen data) fs srv = (r, srv') /\
    ((exists u p, data !! "username" = Some u /\ data !! "password" = Some p /\
        find_user (store srv) u = None /\
        r = Ok (message "Пользователь успешно зарегистрирован!", 201) /\
        srv' = mkServer (registered gen u p (store srv)) (logged_in srv))
     \/ (succeeded r = false /\ srv' = srv)).
Proof.
  unfold request, RegisterResource_post, try_except.
  unfold bind at 1. unfold getitem.
  destruct (data !! "username") as [u|] eqn:Hu; cbn [ret raise]; [|unchanged].
  unfold bind at 1.
  destruct (data !! "password") as [p|] eqn:Hp; cbn [ret raise]; [|unchanged].
  unfold bind at 1. rewrite query_user_eq.
  destruct (next_fault fs) as [msg|]; [unchanged|].
  destruct (find_user (store srv) u) as [r|] eqn:Hfind; [unchanged|].
  unfold bind, session_add, session_commit, bind. world. cbn [app].
  rewrite round_trip_eq.
  destruct (next_fault (tail fs)) as [msg|]; [unchanged|].
  world. cbn [flush flush1 User_new new_username new_password_hash].
  rewrite (find_user_none _ _ Hfind).
  eexists _, _. split; [reflexivity|]. left. exists u, p. auto.
Qed.

Lemma register_fresh (data : dict) u p fs srv :
  data !! "username" = Some u -> data !! "password" = Some p ->
  healthy fs -> find_user (store srv) u = None ->
  request (RegisterResource_post gen data) fs srv
  = (Ok (message "Пользователь успешно зарегистрирован!", 201),
     mkServer (registered gen u p (store srv)) (logged_in srv)).
Proof.
  intros Hu Hp Hfs Hnone. unfold request, RegisterResource_post, try_except.
  unfold bind at 1. unfold getitem. rewrite Hu. cbn [ret].
  unfold bind at 1. rewrite Hp. cbn [ret].
  unfold bind at 1. rewrite query_user_eq, (healthy_next_fault _ Hfs), Hnone.
  unfold bind, session_add, session_commit, bind. world. cbn [app].
  rewrite round_trip_eq, (healthy_next_fault _ (healthy_tail _ Hfs)). world.
  cbn [flush flush1 User_new new_username new_password_hash].
  rewrite (find_user_none _ _ Hnone). reflexivity.
Qed.

Lemma register_taken (data : dict) u p r fs srv :
  data !! "username" = Some u -> data !! "password" = Some p ->
  healthy fs -> find_user (store srv) u = Some r ->
  request (RegisterResource_post gen data) fs srv
  = (Ok (error ("Имя пользователя уже занято: " +:+ u), 400), srv).
Proof.
  intros Hu Hp Hfs Hsome. unfold request, RegisterResource_post, try_except.
  unfold bind at 1. unfold getitem. rewrite Hu. cbn [ret].
  unfold bind at 1. rewrite Hp. cbn [ret].
  unfold bind at 1. rewrite query_user_eq, (healthy_next_fault _ Hfs), Hsome.
  cbn [ret db current_user]. rewrite server_eta. reflexivity.
Qed.

Lemma login_unknown (data : dict) u p fs srv :
  data !! "username" = Some u -> data !! "password" = Some p ->
  healthy fs -> find_user (store srv) u = None ->
  request (LoginResource_post chk data) fs srv
  = (Ok (error "Неправильное имя пользователя или пароль!", 401), srv).
Proof.
  intros Hu Hp Hfs Hnone. unfold request, LoginResource_post, try_except.
  unfold bind at 1. unfold getitem. rewrite Hu. cbn [ret].
  unfold bind at 1. rewrite Hp. cbn [ret].
  unfold bind at 1. rewrite query_user_eq, (healthy_next_fault _ Hfs), Hnone.
  cbn [ret db current_user]. rewrite server_eta. reflexivity.
Qed.

Lemma login_wrong_password (data : dict) u p r fs srv :
  data !! "username" = Some u -> data !! "password" = Some p ->
  healthy fs -> find_user (store srv) u = Some r ->
  chk (User_password_hash r) p = false ->
  request (LoginResource_post chk data) fs srv
  = (Ok (error "Неправильное имя пользователя или пароль!", 401), srv).
Proof.
  intros Hu Hp Hfs Hsome Hchk. unfold request, LoginResource_post, try_except.
  unfold bind at 1. unfold getitem. rewrite Hu. cbn [ret].
  unfold bind at 1. rewrite Hp. cbn [ret].
  unfold bind at 1. rewrite query_user_eq, (healthy_next_fault _ Hfs), Hsome, Hchk.
  cbn [negb ret db current_user]. rewrite server_eta. reflexivity.
Qed.

Lemma login_right_password (data : dict) u p r fs srv :
  data !! "username" = Some u -> data !! "password" = Some p ->
  healthy fs -> find_user (store srv) u = Some r ->
  chk (User_password_hash r) p = true ->
  request (LoginResource_post chk data) fs srv
  = (Ok (message "Вход в систему выполнен успешно!", 200),
     mkServer (store srv) (Some r)).
Proof.
  intros Hu Hp Hfs Hsome Hchk. unfold request, LoginResource_post, try_except.
  unfold bind at 1. unfold getitem. rewrite Hu. cbn [ret].
  unfold bind at 1. rewrite Hp. cbn [ret].
  unfold bind at 1. rewrite query_user_eq, (healthy_next_fault _ Hfs), Hsome, Hchk.
  reflexivity.
Qed.

(** The three per-note views stop at the guard, whatever the request. *)
Lemma get_stops_at_guard id fs srv :
  request (NoteResource_get id) fs srv = (guard_result fs srv id, srv).
Proof.
  unfold request, NoteResource_get, login_required, guard_result.
  destruct srv as [d [me|]]; cbn [logged_in store current_user]; [|reflexivity].
  unfold bind at 1. rewrite note_query_get_eq.
  destruct (next_fault fs); [reflexivity|].
  destruct (find_note d id); reflexivity.
Qed.

Lemma put_stops_at_guard id (data : dict) fs srv :
  request (NoteResource_put id data) fs srv = (guard_result fs srv id, srv).
Proof.
  unfold request, NoteResource_put, login_required, guard_result.
  destruct srv as [d [me|]]; cbn [logged_in store current_user]; [|reflexivity].
  unfold bind at 1. rewrite note_query_get_eq.
  destruct (next_fault fs); [reflexivity|].
  destruct (find_note d id); reflexivity.
Qed.

Lemma delete_stops_at_guard id fs srv :
  request (NoteResource_delete id) fs srv = (guard_result fs srv id, srv).
Proof.
  unfold request, NoteResource_delete, login_required, guard_result.
  destruct srv as [d [me|]]; cbn [logged_in store current_user]; [|reflexivity].
  unfold bind at 1. rewrite note_query_get_eq.
  destruct (next_fault fs); [reflexivity|].
  destruct (find_note d id); reflexivity.
Qed.

Lemma guard_never_succeeds fs srv id : succeeded (guard_result fs srv id) = false.
Proof.
  unfold guard_result. destruct (logged_in srv); [|reflexivity].
  destruct (next_fault fs); [reflexivity|].
  destruct (find_note (store srv) id); reflexivity.
Qed.

(** [POST /notes] never reaches the session. *)
Lemma create_stops_early (data : dict) fs srv :
  request (NotesResource_post data) fs srv = (create_result srv data, srv).
Proof.
  unfold request, NotesResource_post, login_required, create_result.
  destruct srv as [d [me|]]; cbn [logged_in store current_user]; [|reflexivity].
  unfold try_except. unfold bind at 1. unfold getitem.
  destruct (data !! "title") as [t|]; [|reflexivity].
  cbn [ret]. unfold bind at 1.
  destruct (data !! "content") as [c|]; reflexivity.
Qed.

Lemma create_never_succeeds srv (data : dict) : succeeded (create_result srv data) = false.
Proof.
  unfold create_result. destruct (logged_in srv); [|reflexivity].
  destruct (data !! "title"); [|reflexivity].
  destruct (data !! "content"); reflexivity.
Qed.

(** Past the ownership test [PUT] reads [note.content], which [Note] does
    not have, before it writes anything. *)
Lemma put_found_raises (n : Note) (data : dict) (w : World) :
  NoteResource_put_found n data w = (Raise (AttributeError "Note" "content"), w).
Proof. reflexivity. Qed.

(** A flush fails with an [SQLAlchemyError] only. *)
Lemma flush_raises_SQLAlchemyError ps d e :
  flush ps d = Raise e -> is_SQLAlchemyError e = true.
Proof.
  revert d. induction ps as [|p ps IH]; intros d; cbn [flush]; [discriminate|].
  destruct (flush1 p d) as [d'|e'] eqn:E; [apply IH|].
  intros [= <-]. destruct p; cbn in E; try discriminate.
  destruct (existsb _ _); [|discriminate]. injection E as <-. reflexivity.
Qed.

(** The [try] that ends [PUT] makes one round trip, the commit: either every
    pending change reaches the tables and the view answers 200, or the
    session is rolled back, the tables are as before and the view answers
    500. *)
Lemma put_commit_outcome ps d cu fs :
  let rc := NoteResource_put_commit (mkWorld d ps cu fs) in
  session (snd rc) = [] /\
  ((fst rc = Ok (message "Заметка успешно обновлена!", 200) /\
    flush ps d = Ok (db (snd rc))) \/
   ((exists msg, fst rc = Ok (error ("Ошибка при обновлении заметки! " +:+ msg), 500)) /\
    db (snd rc) = d)).
Proof.
  cbv zeta. unfold NoteResource_put_commit, try_except, session_commit, bind.
  rewrite round_trip_eq.
  destruct (next_fault fs) as [msg|].
  - cbn. split; [reflexivity|]. right. split; [exists msg|]; reflexivity.
  - world. destruct (flush ps d) as [d'|e] eqn:E.
    + cbn. split; [reflexivity|]. left. split; reflexivity.
    + cbn [List.find fst snd]. rewrite (flush_raises_SQLAlchemyError _ _ _ E).
      cbn. split; [reflexivity|]. right. split; [exists (exn_str e)|]; reflexivity.
Qed.

(** The end of [POST /notes], were a note to be built, makes one round trip,
    the commit: when it fails the view answers 500 and the tables are as
    before, otherwise the note is the last row of the table and the view
    answers 201. *)
Lemma post_save_outcome (nn : NewNote) d cu fs :
  let rn := try_except (NotesResource_post_save nn) NotesResource_post_except
              (mkWorld d [] cu fs) in
  match next_fault fs with
  | Some msg =>
      fst rn = Ok (error ("Ошибка при создании заметки! " +:+ msg), 500) /\
      db (snd rn) = d
  | None =>
      fst rn = Ok (message "Заметка успешно создана!", 201) /\
      session (snd rn) = [] /\
      db (snd rn)
      = mkDB (users d)
             (notes d ++ [mkNote (next_id (Note_id <$> notes d)) (to_text (new_title nn))
                                 (to_text (new_description nn)) (to_text (new_status nn))])
  end.
Proof.
  cbv zeta. unfold NotesResource_post_save, NotesResource_post_except, try_except,
    session_add, session_commit, bind. world. cbn [app]. rewrite round_trip_eq.
  destruct (next_fault fs); cbn; repeat split.
Qed.

Lemma find_note_without id d : find_note (without_note id d) id = None.
Proof.
  unfold find_note, without_note. cbn [notes].
  induction (notes d) as [|n l IH]; [reflexivity|]. cbn [List.filter].
  destruct (Z.eqb (Note_id n) id) eqn:E; cbn [negb]; [exact IH|].
  cbn [List.find]. rewrite E. exact IH.
Qed.

(** Past the ownership test [DELETE] makes one round trip, the commit: when
    it fails the deletion is rolled back and the view answers 500, otherwise
    the rows of that id leave the table and the view answers 200. *)
Lemma delete_found_outcome (n : Note) d cu fs :
  NoteResource_delete_found n (mkWorld d [] cu fs)
  = match next_fault fs with
    | Some msg =>
        (Ok (error ("Ошибка при удалении заметки! " +:+ msg), 500),
         mkWorld d [] cu (tail fs))
    | None =>
        (Ok (message "Заметка успешно удалена!", 200),
         mkWorld (without_note (Note_id n) d) [] cu (tail fs))
    end.
Proof.
  unfold NoteResource_delete_found, try_except, session_delete, session_add,
    session_commit, bind. world. cbn [app]. rewrite round_trip_eq.
  destruct (next_fault fs); reflexivity.
Qed.

(** [LoginResource_post_json] on a body of strings is [LoginResource_post]. *)
Lemma login_json_on_strings (data : dict) (w : World) :
  LoginResource_post_json chk (PStr <$> data) w = LoginResource_post chk data w.
Proof.
  unfold LoginResource_post_json, LoginResource_post, try_except, bind,
    getitem_json, getitem.
  rewrite !lookup_fmap.
  destruct (data !! "username") as [u|]; [|reflexivity].
  destruct (data !! "password") as [p|]; reflexivity.
Qed.



(** A password that is no string makes the check raise as soon as a user was
    found; the exception is no [SQLAlchemyError] and leaves the view. *)
Lemma login_json_not_a_string (data : json_object) u v r fs srv :
  data !! "username" = Some (PStr u) -> data !! "password" = Some v ->
  type_name v <> "str" ->
  healthy fs -> find_user (store srv) u = Some r ->
  request (LoginResource_post_json chk data) fs srv
  = (Raise (AttributeError (type_name v) "encode"), srv).
Proof.
  intros Hu Hp Hv Hfs Hsome. unfold request, LoginResource_post_json, try_except.
  unfold bind at 1. unfold getitem_json. rewrite Hu. cbn [ret].
  unfold bind at 1. rewrite Hp. cbn [ret].
  unfold bind at 1. rewrite query_user_eq, (healthy_next_fault _ Hfs), Hsome.
  unfold bind at 1.
  destruct v; [| |contradiction Hv; reflexivity];
    cbn; rewrite server_eta; reflexivity.
Qed.

(** [GET /notes] filters on a column [Note] does not have. *)
Lemma list_raises me fs d :
  request NotesResource_get fs (mkServer d (Some me))
  = (Raise (SQLAlchemyError InvalidRequestError
              "Entity namespace for 'Note' has no property 'user_id'"),
     mkServer d (Some me)).
Proof. reflexivity. Qed.

End Views.

(** *** The properties of the specification *)

Section Specification.

Variable gen : string -> string.
Variable chk : string -> string -> bool.

(** C1 (the code departs from it). A note that exists makes the per-note
    views raise: with bob logged in and a note of id 1 in the table,
    [GET], [PUT] and [DELETE /notes/1] each raise [AttributeError] on
    [note.user_id] instead of answering 404; only an id with no note
    ([/notes/2]) gets the 404. The tables are unchanged in every case. *)
Theorem foreign_note_is_not_a_404 :
  let srv := bob_in [note1] in
  request (NoteResource_get 1) [] srv = (Raise (AttributeError "Note" "user_id"), srv) /\
  request (NoteResource_put 1 {[ "title" := "mine" ]}) [] srv
    = (Raise (AttributeError "Note" "user_id"), srv) /\
  request (NoteResource_delete 1) [] srv = (Raise (AttributeError "Note" "user_id"), srv) /\
  request (NoteResource_get 2) [] srv = (Ok (error "Заметка не найдена!", 404), srv).
Proof.
  cbv zeta. rewrite (get_stops_at_guard 1), (put_stops_at_guard 1), (delete_stops_at_guard 1),
    (get_stops_at_guard 2).
  repeat split.
Qed.

(** C2 (the code departs from it). Alice, logged in, posts a note with title
    and content: the view raises [TypeError] instead of answering 201 and
    the note table stays empty; her [GET /notes] then raises
    [InvalidRequestError] instead of listing anything. *)
Theorem created_note_is_never_listed :
  let srv := alice_in [] in
  request (NotesResource_post {[ "title" := "t"; "content" := "c" ]}) [] srv
    = (Raise (TypeError "Note.__init__() got an unexpected keyword argument 'content'"), srv) /\
  request NotesResource_get [] srv
    = (Raise (SQLAlchemyError InvalidRequestError
                "Entity namespace for 'Note' has no property 'user_id'"), srv).
Proof.
  cbv zeta. rewrite create_stops_early. split; reflexivity.
Qed.


(** C4 (the code departs from it). Alice updates note 1 with a body that
    holds only a title: the view raises [AttributeError] instead of
    answering 200, and the note keeps its old title. *)
Theorem title_only_update_changes_nothing :
  let srv := alice_in [note1] in
  request (NoteResource_put 1 {[ "title" := "t2" ]}) [] srv
    = (Raise (AttributeError "Note" "user_id"), srv) /\
  Note_title <$> find_note (store srv) 1 = Some (Some "t").
Proof.
  cbv zeta. rewrite put_stops_at_guard. split; reflexivity.
Qed.

(** C5. Every mutating operation is all or nothing. When the view answers
    2xx its change is in the tables and a later read finds it; in every
    other case (a fault of the store, a refusal, an exception) the server is
    exactly as before. In this code only a registration ever answers 2xx:
    the note operations never do (C2, C4), which the theorem says too, so
    for them the first half says nothing. What their own writing code does
    is stated apart. Past the ownership test [DELETE] either commits, and
    the note is gone, or meets a fault at the commit, rolls back and leaves
    the tables as they were. The [try] that ends [PUT] either commits all
    the session holds or rolls back and leaves the tables as they were,
    though [PUT] raises before it has written anything. The end of
    [POST /notes] either commits, and the note is the last row of the table,
    or answers 500 with the tables as they were, though no note is ever
    built for it. *)
Theorem mutations_are_atomic
    (m : mutation) (fs : list fault) (srv : Server)
    (n : Note) (nn : NewNote) (data : dict) (d : DB) (ps : list pending)
    (cu : option User) :
  let rs := request (run gen m) fs srv in
  (if succeeded (fst rs)
   then logged_in (snd rs) = logged_in srv /\
        visible gen m (store srv) (store (snd rs))
   else snd rs = srv) /\
  on_notes m && succeeded (fst rs) = false /\
  (let rw := NoteResource_delete_found n (mkWorld d [] cu fs) in
   session (snd rw) = [] /\
   match next_fault fs with
   | Some msg =>
       fst rw = Ok (error ("Ошибка при удалении заметки! " +:+ msg), 500) /\
       db (snd rw) = d
   | None =>
       fst rw = Ok (message "Заметка успешно удалена!", 200) /\
       db (snd rw) = without_note (Note_id n) d /\
       find_note (db (snd rw)) (Note_id n) = None
   end) /\
  (let rc := NoteResource_put_commit (mkWorld d ps cu fs) in
   session (snd rc) = [] /\
   ((fst rc = Ok (message "Заметка успешно обновлена!", 200) /\
     flush ps d = Ok (db (snd rc))) \/
    ((exists msg, fst rc = Ok (error ("Ошибка при обновлении заметки! " +:+ msg), 500)) /\
     db (snd rc) = d))) /\
  NoteResource_put_found n data (mkWorld d [] cu fs)
    = (Raise (AttributeError "Note" "content"), mkWorld d [] cu fs) /\
  (let rn := try_except (NotesResource_post_save nn) NotesResource_post_except
               (mkWorld d [] cu fs) in
   match next_fault fs with
   | Some msg =>
       fst rn = Ok (error ("Ошибка при создании заметки! " +:+ msg), 500) /\
       db (snd rn) = d
   | None =>
       fst rn = Ok (message "Заметка успешно создана!", 201) /\
       session (snd rn) = [] /\
       db (snd rn)
       = mkDB (users d)
              (notes d ++ [mkNote (next_id (Note_id <$> notes d)) (to_text (new_title nn))
                                  (to_text (new_description nn)) (to_text (new_status nn))])
   end).
Proof.
  cbv zeta.
  split; [|split; [|split; [|split; [apply put_commit_outcome|
                            split; [apply put_found_raises|apply post_save_outcome]]]]].
  - destruct m as [body|body|id body|id]; cbn [run].
    + destruct (register_outcomes gen body fs srv)
        as (r & srv' & -> & [(u & p & Hu & Hp & Hnone & -> & ->)|[Hs ->]]);
        cbn [fst snd]; [|rewrite Hs; reflexivity].
      replace (succeeded (Ok (message "Пользователь успешно зарегистрирован!", 201)))
        with true by reflexivity.
      split; [reflexivity|].
      exists u, p. split; [exact Hu|]. split; [exact Hp|]. split; [reflexivity|].
      cbn [store]. rewrite read_user_eq. f_equal. apply find_user_registered, Hnone.
    + rewrite create_stops_early. cbn [fst snd].
      rewrite create_never_succeeds. reflexivity.
    + rewrite put_stops_at_guard. cbn [fst snd].
      rewrite guard_never_succeeds. reflexivity.
    + rewrite delete_stops_at_guard. cbn [fst snd].
      rewrite guard_never_succeeds. reflexivity.
  - destruct m as [body|body|id body|id]; cbn [run on_notes andb]; [reflexivity| | |].
    + rewrite create_stops_early. apply create_never_succeeds.
    + rewrite put_stops_at_guard. apply guard_never_succeeds.
    + rewrite delete_stops_at_guard. apply guard_never_succeeds.
  - rewrite delete_found_outcome.
    destruct (next_fault fs); cbn [fst snd db session].
    + repeat split.
    + split; [reflexivity|]. split; [reflexivity|]. split; [reflexivity|].
      apply find_note_without.
Qed.

(** C6. Registering a name nobody holds answers 201 and inserts the user,
    with the hash of the password; registering the same name again, with
    any password, answers 400 and leaves the tables as the first
    registration left them. *)
Theorem register_once_then_conflict
    (data data' : dict) (u p p' : string) (fs fs' : list fault) (srv : Server) :
  data !! "username" = Some u -> data !! "password" = Some p ->
  data' !! "username" = Some u -> data' !! "password" = Some p' ->
  healthy fs -> healthy fs' ->
  find_user (store srv) u = None ->
  let srv1 := mkServer (registered gen u p (store srv)) (logged_in srv) in
  request (RegisterResource_post gen data) fs srv
    = (Ok (message "Пользователь успешно зарегистрирован!", 201), srv1) /\
  find_user (store srv1) u
    = Some (mkUser (next_id (User_id <$> users (store srv))) u (gen p)) /\
  request (RegisterResource_post gen data') fs' srv1
    = (Ok (error ("Имя пользователя уже занято: " +:+ u), 400), srv1).
Proof.
  intros Hu Hp Hu' Hp' Hfs Hfs' Hnone srv1.
  assert (Hnow : find_user (store srv1) u
                 = Some (mkUser (next_id (User_id <$> users (store srv))) u (gen p)))
    by (apply find_user_registered, Hnone).
  split; [apply register_fresh; assumption|].
  split; [exact Hnow|].
  eapply register_taken; eassumption.
Qed.


(** C8 (the code departs from it). Alice posts a note without title, then
    one without content: each time the view raises [KeyError], which no
    [except] clause of the view catches, instead of answering 400; no note
    is created. *)
Theorem missing_field_is_a_KeyError :
  let srv := alice_in [] in
  request (NotesResource_post {[ "content" := "c" ]}) [] srv
    = (Raise (KeyError "title"), srv) /\
  request (NotesResource_post {[ "title" := "t" ]}) [] srv
    = (Raise (KeyError "content"), srv).
Proof. cbv zeta. rewrite !create_stops_early. split; reflexivity. Qed.

(** C9. What [GET /notes/<id>] sends for a note, and [GET /notes] for a list
    of notes, is status 200 with the note serialized under exactly the
    members [id], [title], [description] and [status], each holding the
    column of that name, and none named [content]; the list has one such
    object per note. This is the serializing step of the two views; C1 and
    C2 show that, as the code stands, no request of a logged-in user gets as
    far. *)
Theorem note_payload_fields (n : Note) (ns : list Note) (w : World) :
  (exists o,
     NoteResource_get_found n w = (Ok (JObject o, 200), w) /\
     dom o = {[ "id"; "title"; "description"; "status" ]} /\
     o !! "id" = Some (PInt (Note_id n)) /\
     o !! "title" = Some (text (Note_title n)) /\
     o !! "description" = Some (text (Note_description n)) /\
     o !! "status" = Some (text (Note_status n)) /\
     o !! "content" = None) /\
  (exists os,
     NotesResource_get_found ns w = (Ok (JArray os, 200), w) /\
     length os = length ns /\
     Forall (fun o : gmap string pyval =>
               dom o = {[ "id"; "title"; "description"; "status" ]} /\
               o !! "content" = None) os).
Proof.
  assert (H : forall n0, dom (NoteSchema_dump n0)
                         = ({[ "id"; "title"; "description"; "status" ]} : gset string) /\
                         NoteSchema_dump n0 !! "content" = None).
  { intros n0. unfold NoteSchema_dump. cbn. split.
    - rewrite !dom_insert_L, dom_empty_L. set_solver.
    - rewrite !lookup_insert_ne by discriminate. apply lookup_empty. }
  split.
  - exists (NoteSchema_dump n). destruct (H n) as [Hd Hc].
    split; [reflexivity|]. split; [exact Hd|].
    split; [reflexivity|]. split; [reflexivity|]. split; [reflexivity|].
    split; [reflexivity|]. exact Hc.
  - exists (NoteSchema_dump_many ns). split; [reflexivity|].
    split; [unfold NoteSchema_dump_many; apply length_fmap|].
    unfold NoteSchema_dump_many. apply Forall_fmap, Forall_forall. intros x _. apply H.
Qed.

(** C10 (the code departs from it). The call
    [Note(title=..., content=..., user_id=...)] is not a valid call of
    [Note.__init__(self, title, description, status)]: it raises [TypeError],
    whatever the three values, and so does [POST /notes] for every logged-in
    user and every body with title and content. *)
Theorem note_constructor_rejects_the_call :
  (forall t c uid : pyval,
     Note_new [("title", t); ("content", c); ("user_id", uid)]
     = Raise (TypeError "Note.__init__() got an unexpected keyword argument 'content'")) /\
  (forall (me : User) (d : DB) (fs : list fault) (t c : string),
     request (NotesResource_post {[ "title" := t; "content" := c ]}) fs (mkServer d (Some me))
     = (Raise (TypeError "Note.__init__() got an unexpected keyword argument 'content'"),
        mkServer d (Some me))).
Proof.
  split; [reflexivity|]. intros me d fs t c.
  rewrite create_stops_early. unfold create_result. cbn [logged_in].
  rewrite lookup_insert_eq, lookup_insert_ne, lookup_singleton_eq by discriminate.
  reflexivity.
Qed.

End Specification.

(** *** Runs of the properties that have premises *)



Lemma register_once_then_conflict_witness :
  request (RegisterResource_post demo_hash (credentials "alice" "p1")) [] nobody_yet
    = (Ok (message "Пользователь успешно зарегистрирован!", 201),
       mkServer (mkDB [alice] []) None) /\
  find_user (mkDB [alice] []) "alice" = Some alice /\
  request (RegisterResource_post demo_hash (credentials "alice" "p2")) []
          (mkServer (mkDB [alice] []) None)
    = (Ok (error "Имя пользователя уже занято: alice", 400), mkServer (mkDB [alice] []) None).
Proof.
  apply (register_once_then_conflict demo_hash
           (credentials "alice" "p1") (credentials "alice" "p2")
           "alice" "p1" "p2" [] [] nobody_yet);
    try reflexivity; constructor.
Defined.

(** *** Runs of the account views *)

Example registration_reaches_the_store :
  request (RegisterResource_post demo_hash (credentials "alice" "p1")) [] nobody_yet
  = (Ok (message "Пользователь успешно зарегистрирован!", 201),
     mkServer (mkDB [alice] []) None).
Proof. vm_compute. reflexivity. Qed.

Example failed_commit_leaves_the_store :
  request (RegisterResource_post demo_hash (credentials "alice" "p1"))
          [None; Some "database is locked"] nobody_yet
  = (Ok (error "Ошибка при регистрации пользователя! database is locked", 500),
     nobody_yet).
Proof. vm_compute. reflexivity. Qed.

Example right_password_logs_in :
  request (LoginResource_post demo_check (credentials "alice" "p1")) []
          (mkServer (mkDB [alice; bob] []) None)
  = (Ok (message "Вход в систему выполнен успешно!", 200), alice_in []).
Proof. vm_compute. reflexivity. Qed.

(** ** Beyond the specification: what the rest of the code shows *)

Section Routes.

Variable gen : string -> string.
Variable chk : string -> string -> bool.

Lemma login_outcomes (data : dict) fs srv :
  exists r srv',
    request (LoginResource_post chk data) fs srv = (r, srv') /\
    ((exists u p usr, data !! "username" = Some u /\ data !! "password" = Some p /\
        find_user (store srv) u = Some usr /\
        chk (User_password_hash usr) p = true /\
        r = Ok (message "Вход в систему выполнен успешно!", 200) /\
        srv' = mkServer (store srv) (Some usr))
     \/ (succeeded r = false /\ srv' = srv)).
Proof.
  unfold request, LoginResource_post, try_except.
  unfold bind at 1. unfold getitem.
  destruct (data !! "username") as [u|] eqn:Hu; cbn [ret raise]; [|unchanged].
  unfold bind at 1.
  destruct (data !! "password") as [p|] eqn:Hp; cbn [ret raise]; [|unchanged].
  unfold bind at 1. rewrite query_user_eq.
  destruct (next_fault fs) as [msg|]; [unchanged|].
  destruct (find_user (store srv) u) as [usr|] eqn:Hfind; [|unchanged].
  destruct (chk (User_password_hash usr) p) eqn:Hchk; cbn [negb]; [|unchanged].
  eexists _, _. split; [reflexivity|]. left. exists u, p, usr. repeat split; auto.
Qed.

Lemma logout_eq fs srv :
  request LogoutResource_post fs srv
  = match logged_in srv with
    | Some _ => (Ok (message "Выход из системы выполнен успешно!", 200),
                 mkServer (store srv) None)
    | None => (Raise (HTTPException 401), srv)
    end.
Proof. destruct srv as [d [me|]]; reflexivity. Qed.

Lemma notes_get_eq fs srv :
  request NotesResource_get fs srv
  = (match logged_in srv with
     | Some _ => Raise (SQLAlchemyError InvalidRequestError
                          "Entity namespace for 'Note' has no property 'user_id'")
     | None => Raise (HTTPException 401)
     end, srv).
Proof. destruct srv as [d [me|]]; reflexivity. Qed.

(** The only way the tables change: a registration that goes through. *)
Lemma serve_store (r : route) fs srv :
  store (snd (request (serve gen chk r) fs srv)) = store srv \/
  exists data u p,
    r = PostRegister data /\
    data !! "username" = Some u /\ data !! "password" = Some p /\
    find_user (store srv) u = None /\
    store (snd (request (serve gen chk r) fs srv)) = registered gen u p (store srv).
Proof.
  destruct r as [data|data| |data| |id|id data|id]; cbn [serve].
  - destruct (register_outcomes gen data fs srv)
      as (r & srv' & -> & [(u & p & Hu & Hp & Hnone & -> & ->)|[_ ->]]);
      cbn [snd]; [right|left; reflexivity].
    exists data, u, p. repeat split; auto.
  - destruct (login_outcomes data fs srv)
      as (r & srv' & -> & [(u & p & usr & _ & _ & _ & _ & _ & ->)|[_ ->]]);
      left; reflexivity.
  - rewrite logout_eq. destruct (logged_in srv); left; reflexivity.
  - rewrite create_stops_early. left; reflexivity.
  - rewrite notes_get_eq. left; reflexivity.
  - rewrite get_stops_at_guard. left; reflexivity.
  - rewrite put_stops_at_guard. left; reflexivity.
  - rewrite delete_stops_at_guard. left; reflexivity.
Qed.

(** X1. A registration or a login whose body is a JSON object with string
    members that lacks [username] or [password] raises [KeyError] for the
    first of the two that is missing, [username] before [password]: a body
    without [username] raises [KeyError] for [username] whether or not it
    has a password. No [except] clause of the two views catches it, and the
    server is unchanged. *)
Theorem missing_credentials_raise_KeyError (data : dict) (fs : list fault) (srv : Server) :
  data !! "username" = None \/ data !! "password" = None ->
  data !! first_missing data = None /\
  request (RegisterResource_post gen data) fs srv
    = (Raise (KeyError (first_missing data)), srv) /\
  request (LoginResource_post chk data) fs srv
    = (Raise (KeyError (first_missing data)), srv).
Proof.
  intros H. unfold first_missing, request, RegisterResource_post, LoginResource_post,
    try_except.
  unfold bind at 1 3. unfold getitem.
  destruct (data !! "username") as [u|] eqn:Hu; cbn [ret raise].
  - destruct H as [H|H]; [discriminate|].
    unfold bind at 1 3. rewrite H. cbn. rewrite server_eta. auto.
  - cbn. rewrite server_eta. auto.
Qed.

(** X2. When the store fails during a registration, at the lookup of the
    name or at the commit, the view answers 500 with the text of the store's
    error in the body, and the server is unchanged. *)
Theorem register_store_failure_is_a_500
    (data : dict) (u p msg : string) (fs : list fault) (srv : Server) :
  data !! "username" = Some u -> data !! "password" = Some p ->
  next_fault fs = Some msg \/
  (find_user (store srv) u = None /\ next_fault fs = None /\
   next_fault (tail fs) = Some msg) ->
  request (RegisterResource_post gen data) fs srv
  = (Ok (error ("Ошибка при регистрации пользователя! " +:+ msg), 500), srv).
Proof.
  intros Hu Hp H. unfold request, RegisterResource_post, try_except.
  unfold bind at 1. unfold getitem. rewrite Hu. cbn [ret].
  unfold bind at 1. rewrite Hp. cbn [ret].
  unfold bind at 1. rewrite query_user_eq.
  destruct H as [-> | (Hnone & -> & Hcommit)].
  - cbn. rewrite server_eta. reflexivity.
  - rewrite Hnone.
    unfold bind, session_add, session_commit, bind. world. cbn [app].
    rewrite round_trip_eq, Hcommit. cbn. rewrite server_eta. reflexivity.
Qed.

(** X3. When the store fails during a login, the view answers 500 with the
    text of the store's error, nobody is logged in by it and the server is
    unchanged. *)
Theorem login_store_failure_is_a_500
    (data : dict) (u p msg : string) (fs : list fault) (srv : Server) :
  data !! "username" = Some u -> data !! "password" = Some p ->
  next_fault fs = Some msg ->
  request (LoginResource_post chk data) fs srv
  = (Ok (error ("Ошибка при входе в систему! " +:+ msg), 500), srv).
Proof.
  intros Hu Hp Hf. unfold request, LoginResource_post, try_except.
  unfold bind at 1. unfold getitem. rewrite Hu. cbn [ret].
  unfold bind at 1. rewrite Hp. cbn [ret].
  unfold bind at 1. rewrite query_user_eq, Hf.
  cbn. rewrite server_eta. reflexivity.
Qed.

Lemma find_user_none_fresh d u : find_user d u = None -> u ∉ usernames d.
Proof.
  unfold find_user, usernames. induction (users d) as [|r l IH]; cbn.
  - intros _. apply not_elem_of_nil.
  - destruct (String.eqb_spec (User_username r) u) as [->|Hne]; [discriminate|].
    intros Hn. apply not_elem_of_cons. split; [congruence | auto].
Qed.

(** X4. No request makes two users share a name: if the names in the user
    table are pairwise distinct before a request, whatever the route, the
    body and the faults of the store, they are pairwise distinct after it. *)
Theorem usernames_stay_unique (r : route) (fs : list fault) (srv : Server) :
  NoDup (usernames (store srv)) ->
  NoDup (usernames (store (snd (request (serve gen chk r) fs srv)))).
Proof.
  intros Hnd.
  destruct (serve_store r fs srv) as [->|(data & u & p & _ & _ & _ & Hnone & ->)];
    [exact Hnd|].
  unfold usernames, registered. cbn [users]. rewrite fmap_app. cbn.
  apply NoDup_app. split; [exact Hnd|]. split; [|apply NoDup_singleton].
  intros x Hx Hx'. apply list_elem_of_singleton in Hx' as ->.
  exact (find_user_none_fresh _ _ Hnone Hx).
Qed.

(** X6. No route ever writes the note table: after any request, whatever its
    body, the logged-in user and the faults, the notes are those of before. *)
Theorem notes_table_is_never_written (r : route) (fs : list fault) (srv : Server) :
  notes (store (snd (request (serve gen chk r) fs srv))) = notes (store srv).
Proof.
  destruct (serve_store r fs srv) as [->|(data & u & p & _ & _ & _ & _ & ->)];
    reflexivity.
Qed.

(** X7. User rows are only ever appended: after any request the user table
    is the old table followed by at most one new row; no row is changed or
    removed. *)
Theorem user_rows_are_only_appended (r : route) (fs : list fault) (srv : Server) :
  exists new : list User,
    users (store (snd (request (serve gen chk r) fs srv))) = (users (store srv) ++ new)%list /\
    (length new <= 1)%nat.
Proof.
  destruct (serve_store r fs srv) as [->|(data & u & p & _ & _ & _ & _ & ->)].
  - exists []. rewrite app_nil_r. split; [reflexivity | cbn; lia].
  - eexists [_]. split; [reflexivity | cbn; lia].
Qed.

(** X8. An anonymous request to any route behind [@login_required] is
    aborted with 401 before the view does anything: nothing is looked up, and
    the server is unchanged. *)
Theorem anonymous_is_refused (r : route) (fs : list fault) (srv : Server) :
  protected r = true -> logged_in srv = None ->
  request (serve gen chk r) fs srv = (Raise (HTTPException 401), srv).
Proof.
  intros Hp Hanon. destruct srv as [d cu]. cbn in Hanon. subst cu.
  destruct r; try discriminate Hp; reflexivity.
Qed.

(** X9. Logging out, for a logged-in user, answers 200 without touching the
    tables, and from then on every protected route refuses the session. *)
Theorem logout_logs_out (me : User) (r : route) (fs fs' : list fault) (srv : Server) :
  logged_in srv = Some me -> protected r = true ->
  let out := mkServer (store srv) None in
  request LogoutResource_post fs srv
    = (Ok (message "Выход из системы выполнен успешно!", 200), out) /\
  request (serve gen chk r) fs' out = (Raise (HTTPException 401), out).
Proof.
  intros Hin Hp out. rewrite logout_eq, Hin. split; [reflexivity|].
  destruct r; try discriminate Hp; reflexivity.
Qed.

(** X10. A login changes the session only by verifying a password: when the
    view answers 2xx, the body named an existing user whose stored hash
    verifies against the supplied password, and that user is now logged in;
    in every other case the server, session included, is as before. *)
Theorem login_requires_verification (data : dict) (fs : list fault) (srv : Server) :
  let rs := request (LoginResource_post chk data) fs srv in
  if succeeded (fst rs)
  then exists u p usr,
         data !! "username" = Some u /\ data !! "password" = Some p /\
         find_user (store srv) u = Some usr /\
         chk (User_password_hash usr) p = true /\
         snd rs = mkServer (store srv) (Some usr)
  else snd rs = srv.
Proof.
  cbv zeta.
  destruct (login_outcomes data fs srv)
    as (r & srv' & -> & [(u & p & usr & Hu & Hp & Hf & Hc & -> & ->)|[Hs ->]]);
    cbn [fst snd]; [|rewrite Hs; reflexivity].
  replace (succeeded (Ok (message "Вход в систему выполнен успешно!", 200)))
    with true by reflexivity.
  exists u, p, usr. repeat split; auto.
Qed.

(** X11. Registering and then logging in with the same credentials works
    whenever the hash of a password verifies against that password: the
    login answers 200 and the session belongs to the user just created.
    With a password the stored hash does not verify, the login answers 401. *)
Theorem register_then_login
    (data data' : dict) (u p p' : string) (fs fs1 fs2 : list fault) (srv : Server) :
  data !! "username" = Some u -> data !! "password" = Some p ->
  data' !! "username" = Some u -> data' !! "password" = Some p' ->
  healthy fs -> healthy fs1 -> healthy fs2 ->
  find_user (store srv) u = None ->
  chk (gen p) p = true -> chk (gen p) p' = false ->
  let srv1 := snd (request (RegisterResource_post gen data) fs srv) in
  let me := mkUser (next_id (user_ids (store srv))) u (gen p) in
  request (LoginResource_post chk data) fs1 srv1
    = (Ok (message "Вход в систему выполнен успешно!", 200),
       mkServer (store srv1) (Some me)) /\
  request (LoginResource_post chk data') fs2 srv1
    = (Ok (error "Неправильное имя пользователя или пароль!", 401), srv1).
Proof.
  intros Hu Hp Hu' Hp' Hfs Hfs1 Hfs2 Hnone Hok Hbad srv1 me.
  assert (Hme : find_user (store srv1) u = Some me).
  { subst srv1. rewrite (register_fresh gen data u p fs srv) by assumption.
    apply find_user_registered, Hnone. }
  split.
  - apply (login_right_password chk data u p me); assumption.
  - apply (login_wrong_password chk data' u p' me); assumption.
Qed.

(** X12. Logging in and then out brings an anonymous client back where it
    was: the server after the two requests is the server before them. *)
Theorem login_then_logout_is_a_round_trip
    (data : dict) (u p : string) (usr : User) (fs fs' : list fault) (srv : Server) :
  data !! "username" = Some u -> data !! "password" = Some p ->
  healthy fs -> find_user (store srv) u = Some usr ->
  chk (User_password_hash usr) p = true ->
  logged_in srv = None ->
  snd (request LogoutResource_post fs'
         (snd (request (LoginResource_post chk data) fs srv))) = srv.
Proof.
  intros Hu Hp Hfs Hf Hc Hanon.
  rewrite (login_right_password chk data u p usr fs srv) by assumption.
  cbn [snd]. rewrite logout_eq. cbn [logged_in snd store].
  destruct srv as [d cu]. cbn in *. subst cu. reflexivity.
Qed.

(** X15. For a logged-in user and a store that answers, an id with no note
    row gets 404 with an error body from [GET], [PUT] and [DELETE], whatever
    the body, and the server is unchanged. *)
Theorem missing_note_is_a_404
    (me : User) (id : Z) (data : dict) (fs : list fault) (srv : Server) :
  logged_in srv = Some me -> next_fault fs = None ->
  find_note (store srv) id = None ->
  request (NoteResource_get id) fs srv = (Ok (error "Заметка не найдена!", 404), srv) /\
  request (NoteResource_put id data) fs srv = (Ok (error "Заметка не найдена!", 404), srv) /\
  request (NoteResource_delete id) fs srv = (Ok (error "Заметка не найдена!", 404), srv).
Proof.
  intros Hin Hf Hnone.
  rewrite (get_stops_at_guard id), (put_stops_at_guard id), (delete_stops_at_guard id).
  unfold guard_result. rewrite Hin, Hf, Hnone. auto.
Qed.

(** X16. The per-note views look the note up outside their [try]: when the
    store fails at that lookup, the [SQLAlchemyError] escapes the view
    instead of becoming a 500 response. The server is unchanged. *)
Theorem note_lookup_failure_escapes
    (me : User) (id : Z) (data : dict) (msg : string) (fs : list fault) (srv : Server) :
  logged_in srv = Some me -> next_fault fs = Some msg ->
  request (NoteResource_get id) fs srv
    = (Raise (SQLAlchemyError OperationalError msg), srv) /\
  request (NoteResource_put id data) fs srv
    = (Raise (SQLAlchemyError OperationalError msg), srv) /\
  request (NoteResource_delete id) fs srv
    = (Raise (SQLAlchemyError OperationalError msg), srv).
Proof.
  intros Hin Hf.
  rewrite (get_stops_at_guard id), (put_stops_at_guard id), (delete_stops_at_guard id).
  unfold guard_result. rewrite Hin, Hf. auto.
Qed.




(** X18. Only login and logout touch the session: after a request to any
    other route, registration included, the client is logged in as before. *)
Theorem session_changes_only_at_login_and_logout
    (r : route) (fs : list fault) (srv : Server) :
  (forall data, r <> PostLogin data) -> r <> PostLogout ->
  logged_in (snd (request (serve gen chk r) fs srv)) = logged_in srv.
Proof.
  intros Hl Ho. destruct r as [data|data| |data| |id|id data|id]; cbn [serve].
  - destruct (register_outcomes gen data fs srv)
      as (r & srv' & -> & [(u & p & _ & _ & _ & _ & ->)|[_ ->]]); reflexivity.
  - destruct (Hl data). reflexivity.
  - destruct Ho. reflexivity.
  - rewrite create_stops_early. reflexivity.
  - rewrite notes_get_eq. reflexivity.
  - rewrite get_stops_at_guard. reflexivity.
  - rewrite put_stops_at_guard. reflexivity.
  - rewrite delete_stops_at_guard. reflexivity.
Qed.

(** X19. For a logged-in user [GET /notes] raises [InvalidRequestError]
    whatever the tables hold and whether or not the store answers: the
    criterion [user_id] is refused when the query is built, before any round
    trip, and nothing catches the error. The server is unchanged. *)
Theorem list_notes_raises_before_the_store
    (me : User) (fs : list fault) (srv : Server) :
  logged_in srv = Some me ->
  request NotesResource_get fs srv
  = (Raise (SQLAlchemyError InvalidRequestError
              "Entity namespace for 'Note' has no property 'user_id'"), srv).
Proof. intros Hin. rewrite notes_get_eq, Hin. reflexivity. Qed.

(** X20. For a logged-in user and a store that answers, a note that exists
    makes [GET], [PUT] and [DELETE] raise [AttributeError] on [user_id],
    whoever is logged in and whatever the note and the body hold: the views
    treat every user alike, and leave the server unchanged. *)
Theorem existing_note_raises_for_everyone
    (me : User) (n : Note) (id : Z) (data : dict) (fs : list fault) (srv : Server) :
  logged_in srv = Some me -> next_fault fs = None ->
  find_note (store srv) id = Some n ->
  request (NoteResource_get id) fs srv = (Raise (AttributeError "Note" "user_id"), srv) /\
  request (NoteResource_put id data) fs srv = (Raise (AttributeError "Note" "user_id"), srv) /\
  request (NoteResource_delete id) fs srv = (Raise (AttributeError "Note" "user_id"), srv).
Proof.
  intros Hin Hf Hsome.
  rewrite (get_stops_at_guard id), (put_stops_at_guard id), (delete_stops_at_guard id).
  unfold guard_result. rewrite Hin, Hf, Hsome. auto.
Qed.

End Routes.

(** *** The models and the schema on their own *)

Lemma unexpected_keyword_Some params kw k :
  unexpected_keyword params kw = Some k -> k ∈ keywords kw /\ k ∉ params.
Proof.
  unfold unexpected_keyword, keywords.
  destruct (List.find _ kw) as [[k' v]|] eqn:Hf; [|discriminate].
  cbn. intros [= <-]. apply List.find_some in Hf as [Hin Hneg]. split.
  - apply list_elem_of_fmap. exists (k', v). split; [reflexivity|].
    apply list_elem_of_In, Hin.
  - intros Hp. cbn in Hneg. apply negb_true_iff in Hneg.
    assert (Hex : existsb (String.eqb k') params = true).
    { apply existsb_exists. exists k'. split; [apply list_elem_of_In, Hp|].
      apply String.eqb_refl. }
    congruence.
Qed.

Lemma unexpected_keyword_None params kw :
  unexpected_keyword params kw = None -> forall k, k ∈ keywords kw -> k ∈ params.
Proof.
  unfold unexpected_keyword, keywords.
  destruct (List.find _ kw) as [kv|] eqn:Hf; [discriminate|]. intros _ k Hk.
  apply list_elem_of_fmap in Hk as ([k' v] & -> & Hin). cbn.
  apply list_elem_of_In in Hin.
  pose proof (List.find_none _ _ Hf _ Hin) as Hneg. cbn in Hneg.
  apply negb_false_iff, existsb_exists in Hneg as (x & Hx & Heq).
  apply String.eqb_eq in Heq as ->. apply list_elem_of_In, Hx.
Qed.

(** X13. [Note(...)] accepts exactly the keywords [title], [description] and
    [status]: the call builds a note, holding the three values, when every
    keyword is one of the three and all three are given; in every other case
    it raises [TypeError], and then some keyword is foreign or some
    parameter is missing. *)
Theorem Note_new_accepts_exactly_its_parameters (kw : kwargs) :
  match Note_new kw with
  | Ok n =>
      (forall k, k ∈ keywords kw -> k ∈ Note_init_params) /\
      kw_lookup kw "title" = Some (new_title n) /\
      kw_lookup kw "description" = Some (new_description n) /\
      kw_lookup kw "status" = Some (new_status n)
  | Raise e =>
      (exists msg, e = TypeError msg) /\
      ((exists k, k ∈ keywords kw /\ k ∉ Note_init_params) \/
       (exists p, p ∈ Note_init_params /\ kw_lookup kw p = None))
  end.
Proof.
  unfold Note_new, call_kw.
  destruct (unexpected_keyword Note_init_params kw) as [k|] eqn:Hu.
  - split; [eexists; reflexivity|]. left. exists k.
    apply unexpected_keyword_Some, Hu.
  - pose proof (unexpected_keyword_None _ _ Hu) as Hall.
    cbn [bind_params Note_init_params].
    destruct (kw_lookup kw "title") as [t|] eqn:Ht.
    2:{ split; [eexists; reflexivity|]. right. exists "title".
        split; [unfold Note_init_params; set_solver | exact Ht]. }
    destruct (kw_lookup kw "description") as [d|] eqn:Hd.
    2:{ split; [eexists; reflexivity|]. right. exists "description".
        split; [unfold Note_init_params; set_solver | exact Hd]. }
    destruct (kw_lookup kw "status") as [s|] eqn:Hs.
    2:{ split; [eexists; reflexivity|]. right. exists "status".
        split; [unfold Note_init_params; set_solver | exact Hs]. }
    cbn. auto.
Qed.

Lemma text_inj (a b : option string) : text a = text b -> a = b.
Proof. destruct a, b; cbn; congruence. Qed.

(** X14. Serialising a note loses nothing: every column is written under its
    own name ([NULL] as [None]), and two notes with the same serialised form
    are the same note. *)
Theorem NoteSchema_dump_is_faithful (n n' : Note) :
  NoteSchema_dump n !! "id" = Some (PInt (Note_id n)) /\
  NoteSchema_dump n !! "title" = Some (text (Note_title n)) /\
  NoteSchema_dump n !! "description" = Some (text (Note_description n)) /\
  NoteSchema_dump n !! "status" = Some (text (Note_status n)) /\
  (NoteSchema_dump n = NoteSchema_dump n' -> n = n').
Proof.
  assert (H : forall m,
    NoteSchema_dump m !! "id" = Some (PInt (Note_id m)) /\
    NoteSchema_dump m !! "title" = Some (text (Note_title m)) /\
    NoteSchema_dump m !! "description" = Some (text (Note_description m)) /\
    NoteSchema_dump m !! "status" = Some (text (Note_status m))).
  { intros m. unfold NoteSchema_dump. cbn.
    split; [|split; [|split]].
    - apply lookup_insert_eq.
    - rewrite lookup_insert_ne by discriminate. apply lookup_insert_eq.
    - rewrite !lookup_insert_ne by discriminate. apply lookup_insert_eq.
    - rewrite !lookup_insert_ne by discriminate. apply lookup_insert_eq. }
  destruct (H n) as (Hi & Ht & Hd & Hs). repeat split; try assumption.
  intros E. destruct (H n') as (Hi' & Ht' & Hd' & Hs').
  rewrite E in Hi, Ht, Hd, Hs.
  rewrite Hi in Hi'. rewrite Ht in Ht'. rewrite Hd in Hd'. rewrite Hs in Hs'.
  destruct n, n'. cbn in *.
  injection Hi' as ->. injection Ht' as Ht'. injection Hd' as Hd'. injection Hs' as Hs'.
  apply text_inj in Ht', Hd', Hs'. subst. reflexivity.
Qed.

(** *** Runs of the properties above that have premises *)

Lemma missing_credentials_raise_KeyError_witness :
  let data : dict := {[ "password" := "p1" ]} in
  first_missing data = "username" /\
  data !! first_missing data = None /\
  request (RegisterResource_post demo_hash data) [] nobody_yet
    = (Raise (KeyError (first_missing data)), nobody_yet) /\
  request (LoginResource_post demo_check data) [] nobody_yet
    = (Raise (KeyError (first_missing data)), nobody_yet).
Proof.
  split; [reflexivity|].
  apply (missing_credentials_raise_KeyError demo_hash demo_check
           {[ "password" := "p1" ]} [] nobody_yet).
  left. reflexivity.
Defined.

Lemma register_store_failure_is_a_500_witness :
  request (RegisterResource_post demo_hash (credentials "alice" "p1"))
          [None; Some "database is locked"] nobody_yet
  = (Ok (error ("Ошибка при регистрации пользователя! " +:+ "database is locked"), 500),
     nobody_yet).
Proof.
  apply (register_store_failure_is_a_500 demo_hash (credentials "alice" "p1")
           "alice" "p1" "database is locked" [None; Some "database is locked"] nobody_yet);
    try reflexivity.
  right. repeat split.
Defined.

Lemma login_store_failure_is_a_500_witness :
  request (LoginResource_post demo_check (credentials "alice" "p1"))
          [Some "connection lost"] (alice_in [])
  = (Ok (error ("Ошибка при входе в систему! " +:+ "connection lost"), 500), alice_in []).
Proof.
  apply (login_store_failure_is_a_500 demo_check (credentials "alice" "p1")
           "alice" "p1" "connection lost" [Some "connection lost"] (alice_in []));
    reflexivity.
Defined.

Lemma usernames_stay_unique_witness :
  NoDup (usernames (store (snd (request
    (serve demo_hash demo_check (PostRegister (credentials "carol" "p3"))) [] (alice_in []))))).
Proof.
  apply (usernames_stay_unique demo_hash demo_check
           (PostRegister (credentials "carol" "p3")) [] (alice_in [])).
  apply (bool_decide_unpack _). vm_compute. reflexivity.
Defined.

Lemma anonymous_is_refused_witness :
  request (serve demo_hash demo_check (DeleteNoteAt 1)) [] (mkServer (mkDB [alice] [note1]) None)
  = (Raise (HTTPException 401), mkServer (mkDB [alice] [note1]) None).
Proof.
  apply (anonymous_is_refused demo_hash demo_check (DeleteNoteAt 1) []
           (mkServer (mkDB [alice] [note1]) None));
    reflexivity.
Defined.

Lemma logout_logs_out_witness :
  request LogoutResource_post [] (alice_in [note1])
    = (Ok (message "Выход из системы выполнен успешно!", 200),
       mkServer (mkDB [alice; bob] [note1]) None) /\
  request (serve demo_hash demo_check GetNotes) [] (mkServer (mkDB [alice; bob] [note1]) None)
    = (Raise (HTTPException 401), mkServer (mkDB [alice; bob] [note1]) None).
Proof.
  apply (logout_logs_out demo_hash demo_check alice GetNotes [] [] (alice_in [note1]));
    reflexivity.
Defined.

Lemma register_then_login_witness :
  let srv1 := snd (request (RegisterResource_post demo_hash (credentials "carol" "p3"))
                     [] (alice_in [])) in
  let me := mkUser (next_id (user_ids (store (alice_in [])))) "carol" (demo_hash "p3") in
  request (LoginResource_post demo_check (credentials "carol" "p3")) [] srv1
    = (Ok (message "Вход в систему выполнен успешно!", 200),
       mkServer (store srv1) (Some me)) /\
  request (LoginResource_post demo_check (credentials "carol" "oops")) [] srv1
    = (Ok (error "Неправильное имя пользователя или пароль!", 401), srv1).
Proof.
  apply (register_then_login demo_hash demo_check
           (credentials "carol" "p3") (credentials "carol" "oops")
           "carol" "p3" "oops" [] [] [] (alice_in []));
    try reflexivity; constructor.
Defined.

Lemma login_then_logout_is_a_round_trip_witness :
  snd (request LogoutResource_post []
         (snd (request (LoginResource_post demo_check (credentials "alice" "p1")) []
                 (mkServer (mkDB [alice; bob] []) None))))
  = mkServer (mkDB [alice; bob] []) None.
Proof.
  apply (login_then_logout_is_a_round_trip demo_check (credentials "alice" "p1")
           "alice" "p1" alice [] [] (mkServer (mkDB [alice; bob] []) None));
    try reflexivity; constructor.
Defined.

Lemma missing_note_is_a_404_witness :
  request (NoteResource_get 7) [] (alice_in [note1])
    = (Ok (error "Заметка не найдена!", 404), alice_in [note1]) /\
  request (NoteResource_put 7 {[ "title" := "t2" ]}) [] (alice_in [note1])
    = (Ok (error "Заметка не найдена!", 404), alice_in [note1]) /\
  request (NoteResource_delete 7) [] (alice_in [note1])
    = (Ok (error "Заметка не найдена!", 404), alice_in [note1]).
Proof.
  apply (missing_note_is_a_404 alice 7 {[ "title" := "t2" ]} [] (alice_in [note1]));
    reflexivity.
Defined.

Lemma note_lookup_failure_escapes_witness :
  request (NoteResource_get 1) [Some "connection lost"] (alice_in [note1])
    = (Raise (SQLAlchemyError OperationalError "connection lost"), alice_in [note1]) /\
  request (NoteResource_put 1 {[ "title" := "t2" ]}) [Some "connection lost"] (alice_in [note1])
    = (Raise (SQLAlchemyError OperationalError "connection lost"), alice_in [note1]) /\
  request (NoteResource_delete 1) [Some "connection lost"] (alice_in [note1])
    = (Raise (SQLAlchemyError OperationalError "connection lost"), alice_in [note1]).
Proof.
  apply (note_lookup_failure_escapes alice 1 {[ "title" := "t2" ]} "connection lost"
           [Some "connection lost"] (alice_in [note1]));
    reflexivity.
Defined.


Lemma session_changes_only_at_login_and_logout_witness :
  logged_in (snd (request (serve demo_hash demo_check (PostRegister (credentials "carol" "p3")))
                    [] (alice_in [])))
  = logged_in (alice_in []).
Proof.
  apply (session_changes_only_at_login_and_logout demo_hash demo_check
           (PostRegister (credentials "carol" "p3")) [] (alice_in []));
    intros; discriminate.
Defined.

Lemma list_notes_raises_before_the_store_witness :
  request NotesResource_get [Some "connection lost"] (bob_in [note1])
  = (Raise (SQLAlchemyError InvalidRequestError
              "Entity namespace for 'Note' has no property 'user_id'"), bob_in [note1]).
Proof.
  apply (list_notes_raises_before_the_store bob [Some "connection lost"] (bob_in [note1])).
  reflexivity.
Defined.

Lemma existing_note_raises_for_everyone_witness :
  request (NoteResource_get 1) [None] (alice_in [note1])
    = (Raise (AttributeError "Note" "user_id"), alice_in [note1]) /\
  request (NoteResource_put 1 {[ "content" := "c2" ]}) [None] (alice_in [note1])
    = (Raise (AttributeError "Note" "user_id"), alice_in [note1]) /\
  request (NoteResource_delete 1) [None] (alice_in [note1])
    = (Raise (AttributeError "Note" "user_id"), alice_in [note1]).
Proof.
  apply (existing_note_raises_for_everyone alice note1 1 {[ "content" := "c2" ]} [None]
           (alice_in [note1]));
    reflexivity.
Defined.
